(** * PostsListPage: the windowed fetch datasource and the page-size handler

    A shallow embedding of [src/pages/PostsListPage.tsx].

    The component owns one piece of React state ([pageSize]) and one ref
    ([gridApiRef]).  It hands the grid an [IDatasource] whose [getRows]
    translates a row window into a [page]/[size] request against the posts
    endpoint and reports the outcome through the two callbacks of the
    request.

    Numbers.  Row indices and page sizes are integer-valued JavaScript
    numbers; they are modelled by [Z].  The only operation of the source
    that leaves the integers is the division in [Math.floor(startRow / size)]
    when [size] is [0], so the page index has the type [number], which adds
    the three non-finite results.  JavaScript numbers are doubles: the
    integer model is exact for operands up to [MAX_SAFE_INTEGER] in absolute
    value, and the statements that depend on the exact quotient or on the
    digits of a number carry that bound.  [double_floor_div] is the same
    division as the machine computes it, for operands beyond that range.

    Effects.  [getRows] is an [async] function whose body is one
    [try]/[catch].  Its run is modelled as the list of the effects it
    performs, in order, together with the way its promise settles. *)

From Stdlib Require Import ZArith List Ascii String Bool Lia.
From Stdlib Require Import DecimalString DecimalPos DecimalZ.
Import ListNotations.
Set Warnings "-register-all".
Open Scope string_scope.
Open Scope list_scope.
Open Scope Z_scope.

(** ** JavaScript values *)

Module Js.

(** The values that travel through the adapter: what [res.json()] can
    produce, plus [undefined] (the result of reading an absent
    property).  An object is its list of own properties; a lookup takes the
    first binding of the key. *)
Inductive value : Type :=
| Undefined
| Null
| Bool (b : bool)
| Num (z : Z)
| Str (s : string)
| Arr (items : list value)
| Obj (props : list (string * value)).

(** What can be thrown. *)
Inductive exn : Type :=
| Error (message : string)
| TypeError
| SyntaxError
| Thrown (v : value).

(** A JavaScript number that may result from [Math.floor (a / b)] on
    integers. *)
Inductive number : Type :=
| Int (z : Z)
| Infinity
| NegInfinity
| NaN.

(** [Number.MAX_SAFE_INTEGER], 2^53 - 1. *)
Definition MAX_SAFE_INTEGER : Z := 9007199254740991.

(** [Math.floor(a / b)] for integer-valued [a] and [b] of absolute value at
    most [MAX_SAFE_INTEGER], where the quotient of the two doubles floors to
    the floor of the exact quotient.  [Z.div] rounds towards minus infinity
    for either sign of the divisor. *)
Definition floor_div (a b : Z) : number :=
  if b =? 0 then
    if 0 <? a then Infinity
    else if a <? 0 then NegInfinity
    else NaN
  else Int (a / b).

(** Number to string, as a template literal does it, for an integer of
    absolute value below 10^21 (every integer up to [MAX_SAFE_INTEGER] is):
    its decimal digits, with a minus sign when it is negative.  From 10^21
    on JavaScript prints an exponent, which is outside this definition. *)
Definition string_of_Z (z : Z) : string :=
  NilZero.string_of_int (Z.to_int z).

Definition string_of_number (n : number) : string :=
  match n with
  | Int z => string_of_Z z
  | Infinity => "Infinity"
  | NegInfinity => "-Infinity"
  | NaN => "NaN"
  end.

(** [a ?? b] on an optional numeric field. *)
Definition nullish (a : option Z) (b : Z) : Z :=
  match a with
  | Some z => z
  | None => b
  end.

Fixpoint lookup (k : string) (props : list (string * value)) : value :=
  match props with
  | [] => Undefined
  | (k', v) :: rest => if String.eqb k k' then v else lookup k rest
  end.

(** [v.k] for a key [k] that no prototype defines ([content],
    [totalElements]): reading it from [null] or [undefined] throws, from
    an object it is the own property or [undefined], and from any other
    value it is [undefined]. *)
Definition get (v : value) (k : string) : exn + value :=
  match v with
  | Undefined | Null => inl TypeError
  | Obj props => inr (lookup k props)
  | _ => inr Undefined
  end.

End Js.

(** ** The effects of one run *)

(** What the adapter does to the outside world. *)
Inductive event : Type :=
| Fetch (url : string)
| SuccessCallback (rowsThisBlock lastRow : Js.value)
| FailCallback.

(** A computation performs a list of effects and then either throws or
    returns. *)
Definition M (A : Type) : Type := list event * (Js.exn + A).

Definition ret {A} (a : A) : M A := ([], inr a).

Definition throw {A} (e : Js.exn) : M A := ([], inl e).

Definition bind {A B} (m : M A) (k : A -> M B) : M B :=
  match m with
  | (l, inl e) => (l, inl e)
  | (l, inr a) => let '(l', r) := k a in (l ++ l', r)
  end.

Definition try_catch {A} (body : M A) (handler : Js.exn -> M A) : M A :=
  match body with
  | (l, inl e) => let '(l', r) := handler e in (l ++ l', r)
  | (l, inr a) => (l, inr a)
  end.

Definition emit (ev : event) : M unit := ([ev], inr tt).

Definition lift {A} (r : Js.exn + A) : M A := ([], r).

Notation "x <- m ;; k" := (bind m (fun x => k))
  (at level 61, m at next level, right associativity).
Notation "m ;;; k" := (bind m (fun _ => k))
  (at level 61, right associativity).

(** How a promise settles. *)
Inductive promise : Type :=
| Fulfilled
| Rejected (reason : Js.exn).

Definition settle (r : Js.exn + unit) : promise :=
  match r with
  | inl e => Rejected e
  | inr _ => Fulfilled
  end.

(** How a call of a callback completes. *)
Inductive completion : Type :=
| Returns
| Throws (e : Js.exn).

Definition complete (c : completion) : M unit :=
  match c with
  | Returns => ret tt
  | Throws e => throw e
  end.

(** ** The network *)

(** A settled [fetch]: the response carries its status and the outcome of
    [res.json()], which rejects on a body that is not JSON. *)
Record Response : Type := {
  status : Z;
  json : Js.exn + Js.value;
}.

(** [res.ok]: the status is in the range 200-299. *)
Definition ok (res : Response) : bool :=
  (200 <=? status res) && (status res <=? 299).

Inductive fetch_outcome : Type :=
| NetworkError (e : Js.exn)
| Resolved (res : Response).

(** The behaviour of the remote end, by URL. *)
Definition network : Type := string -> fetch_outcome.

Definition fetch (net : network) (url : string) : M Response :=
  emit (Fetch url) ;;;
  match net url with
  | NetworkError e => throw e
  | Resolved res => ret res
  end.

(** ** The datasource *)

Definition API_BASE : string := "http://localhost:8088".

(** The argument of [getRows].  The two row bounds may be absent; each
    callback is given by how a call of it completes. *)
Record IGetRowsParams : Type := {
  startRow : option Z;
  endRow : option Z;
  successCallback : Js.value -> Js.value -> completion;
  failCallback : completion;
}.

Record IDatasource : Type := {
  getRows : network -> IGetRowsParams -> M unit;
}.

(** The React state of the component and its ref to the grid; the grid is
    declared with the datasource it holds. *)
Record GridApi : Type := {
  cacheBlockSize : Z;
  paginationPageSize : Z;
  datasource : option IDatasource;
  paginationCurrentPage : Z;
  infiniteCache : list (Z * Js.value);
}.

Record PostsListPage : Type := {
  pageSize : Z;
  gridApiRef : option GridApi;
}.

Record GridReadyEvent : Type := {
  api : GridApi;
}.

(** [`${API_BASE}/api/posts?page=${page}&size=${size}`] *)
Definition posts_url (page : Js.number) (size : Z) : string :=
  String.append API_BASE
    (String.append "/api/posts?page="
       (String.append (Js.string_of_number page)
          (String.append "&size=" (Js.string_of_Z size)))).

(** Lines 70-75 of the source, for a datasource that captured [pageSize]. *)
Definition resolved_startRow (params : IGetRowsParams) : Z :=
  Js.nullish (startRow params) 0.

Definition resolved_endRow (pageSize : Z) (params : IGetRowsParams) : Z :=
  Js.nullish (endRow params) (resolved_startRow params + pageSize).

Definition page_index (pageSize : Z) (params : IGetRowsParams) : Js.number :=
  let size := pageSize in
  Js.floor_div (resolved_startRow params) size.

Definition call_successCallback (params : IGetRowsParams)
    (rowsThisBlock lastRow : Js.value) : M unit :=
  emit (SuccessCallback rowsThisBlock lastRow) ;;;
  complete (successCallback params rowsThisBlock lastRow).

Definition call_failCallback (params : IGetRowsParams) : M unit :=
  emit FailCallback ;;;
  complete (failCallback params).

(** [buildDatasource], as created by the render that sees the state [c]:
    the object closes over that render's [pageSize]. *)
Definition buildDatasource (c : PostsListPage) : IDatasource :=
  let pageSize := pageSize c in
  {| getRows := fun net params =>
       try_catch
         (let startRow := resolved_startRow params in
          let endRow := resolved_endRow pageSize params in
          let size := pageSize in
          let page := page_index pageSize params in
          res <- fetch net (posts_url page size) ;;
          (if negb (ok res) then throw (Js.Error "API error") else ret tt) ;;;
          data <- lift (json res) ;;
          content <- lift (Js.get data "content") ;;
          totalElements <- lift (Js.get data "totalElements") ;;
          call_successCallback params content totalElements)
         (fun e => call_failCallback params) |}.

(** ** The grid *)

(** Modelled from the spec: the grid's configuration API, which belongs to
    the widget library (section 4.3: a cache-block-size setting, a
    pagination-page-size setting, a current pagination page, a cache of row
    blocks, and the datasource the widget asks for rows). *)
Definition setGridOption (key : string) (v : Z) (g : GridApi) : GridApi :=
  if String.eqb key "cacheBlockSize" then
    {| cacheBlockSize := v;
       paginationPageSize := paginationPageSize g;
       datasource := datasource g;
       paginationCurrentPage := paginationCurrentPage g;
       infiniteCache := infiniteCache g |}
  else if String.eqb key "paginationPageSize" then
    {| cacheBlockSize := cacheBlockSize g;
       paginationPageSize := v;
       datasource := datasource g;
       paginationCurrentPage := paginationCurrentPage g;
       infiniteCache := infiniteCache g |}
  else g.

(** Modelled from the spec: installing the datasource of the widget. *)
Definition setDatasource (ds : IDatasource) (g : GridApi) : GridApi :=
  {| cacheBlockSize := cacheBlockSize g;
     paginationPageSize := paginationPageSize g;
     datasource := Some ds;
     paginationCurrentPage := paginationCurrentPage g;
     infiniteCache := infiniteCache g |}.

(** Modelled from the spec: the widget's pagination goes back to its first
    page. *)
Definition paginationGoToFirstPage (g : GridApi) : GridApi :=
  {| cacheBlockSize := cacheBlockSize g;
     paginationPageSize := paginationPageSize g;
     datasource := datasource g;
     paginationCurrentPage := 0;
     infiniteCache := infiniteCache g |}.

(** Modelled from the spec: every cached row block of the widget is
    dropped. *)
Definition purgeInfiniteCache (g : GridApi) : GridApi :=
  {| cacheBlockSize := cacheBlockSize g;
     paginationPageSize := paginationPageSize g;
     datasource := datasource g;
     paginationCurrentPage := paginationCurrentPage g;
     infiniteCache := [] |}.

(** Modelled from the spec: a row-window request of the widget goes to the
    datasource it currently holds; a widget without one asks nothing. *)
Definition requestRows (g : GridApi) (net : network)
    (params : IGetRowsParams) : M unit :=
  match datasource g with
  | Some ds => getRows ds net params
  | None => ret tt
  end.

(** ** The component *)

(** The first render: [useState(10)] and [useRef(null)]. *)
Definition mount : PostsListPage :=
  {| pageSize := 10; gridApiRef := None |}.

Definition setPageSize (next : Z) (c : PostsListPage) : PostsListPage :=
  {| pageSize := next; gridApiRef := gridApiRef c |}.

Definition onGridReady (c : PostsListPage) (e : GridReadyEvent)
    : PostsListPage :=
  let g := api e in
  let g := setGridOption "cacheBlockSize" (pageSize c) g in
  let g := setGridOption "paginationPageSize" (pageSize c) g in
  let g := setDatasource (buildDatasource c) g in
  {| pageSize := pageSize c; gridApiRef := Some g |}.

Definition onChangePageSize (c : PostsListPage) (next : Z) : PostsListPage :=
  let c' := setPageSize next c in
  match gridApiRef c with
  | None => c'
  | Some g =>
      let g := setGridOption "cacheBlockSize" next g in
      let g := setGridOption "paginationPageSize" next g in
      let g := paginationGoToFirstPage g in
      let g := purgeInfiniteCache g in
      {| pageSize := pageSize c'; gridApiRef := Some g |}
  end.

(** A row-window request of the grid the component is attached to. *)
Definition windowRequest (c : PostsListPage) (net : network)
    (params : IGetRowsParams) : M unit :=
  match gridApiRef c with
  | Some g => requestRows g net params
  | None => ret tt
  end.

(** The grid element of a render: [<AgGridReact rowModelType="infinite"
    pagination paginationPageSize={pageSize} ... />], before it is ready.
    No datasource is passed as a prop; the cache block size is the widget's
    default. *)
Definition AgGridReact (c : PostsListPage) : GridApi :=
  {| cacheBlockSize := 100;
     paginationPageSize := pageSize c;
     datasource := None;
     paginationCurrentPage := 0;
     infiniteCache := [] |}.

(** ** Observations on a run *)

Definition events {A} (m : M A) : list event := fst m.

Definition fetched {A} (m : M A) : list string :=
  flat_map (fun ev => match ev with Fetch url => [url] | _ => [] end)
    (events m).

Definition successes {A} (m : M A) : list (Js.value * Js.value) :=
  flat_map
    (fun ev =>
       match ev with
       | SuccessCallback rows lastRow => [(rows, lastRow)]
       | _ => []
       end)
    (events m).

Definition failures {A} (m : M A) : nat :=
  List.length
    (filter (fun ev => match ev with FailCallback => true | _ => false end)
       (events m)).

(** The promise an [async] function returns for a run of its body. *)
Definition settled (m : M unit) : promise := settle (snd m).

(** The page fetches that end in the [catch] block: [fetch] rejects, the
    status is not ok, [res.json()] rejects, or the body is a JSON value from
    which no property can be read. *)
Definition fetch_fails (o : fetch_outcome) : bool :=
  match o with
  | NetworkError _ => true
  | Resolved res =>
      negb (ok res) ||
      match json res with
      | inl _ => true
      | inr Js.Null | inr Js.Undefined => true
      | inr _ => false
      end
  end.

(** ** The page envelope, as the endpoint documents it *)

Module Envelope.

(** [type Post] *)
Definition is_post (v : Js.value) : bool :=
  match v with
  | Js.Obj props =>
      match Js.lookup "id" props, Js.lookup "title" props,
            Js.lookup "author" props, Js.lookup "createdAt" props,
            Js.lookup "views" props with
      | Js.Num _, Js.Str _, Js.Str _, Js.Str _, Js.Num _ => true
      | _, _, _, _, _ => false
      end
  | _ => false
  end.

(** [type PageResponse<Post>] *)
Record PageResponse : Type := {
  content : list Js.value;
  page : Z;
  size : Z;
  totalElements : Z;
  totalPages : Z;
}.

(** A body has the shape of the envelope when it is an object with the
    five fields at their types. *)
Definition decode (v : Js.value) : option PageResponse :=
  match v with
  | Js.Obj props =>
      match Js.lookup "content" props, Js.lookup "page" props,
            Js.lookup "size" props, Js.lookup "totalElements" props,
            Js.lookup "totalPages" props with
      | Js.Arr rows, Js.Num p, Js.Num s, Js.Num te, Js.Num tp =>
          if forallb is_post rows then
            Some {| content := rows; page := p; size := s;
                    totalElements := te; totalPages := tp |}
          else None
      | _, _, _, _, _ => None
      end
  | _ => None
  end.

(** A failed page fetch in the words of the interface: a status outside
    2xx, or a body that does not parse as the envelope. *)
Definition failed_page_fetch (res : Response) : bool :=
  negb (ok res) ||
  match json res with
  | inl _ => true
  | inr data =>
      match decode data with
      | Some _ => false
      | None => true
      end
  end.

End Envelope.

(** ** Sample inputs *)

Definition post1 : Js.value :=
  Js.Obj [("id", Js.Num 1); ("title", Js.Str "hello");
          ("author", Js.Str "kim"); ("createdAt", Js.Str "2024-01-01T00:00:00Z");
          ("views", Js.Num 7)].

Definition page0 : Js.value :=
  Js.Obj [("content", Js.Arr [post1]); ("page", Js.Num 0);
          ("size", Js.Num 10); ("totalElements", Js.Num 1);
          ("totalPages", Js.Num 1)].

(** A server that answers every request with the same response. *)
Definition always (res : Response) : network := fun _ => Resolved res.

Definition window (s e : option Z) : IGetRowsParams :=
  {| startRow := s; endRow := e;
     successCallback := fun _ _ => Returns;
     failCallback := Returns |}.

(** A caller whose success continuation throws. *)
Definition throwing_window (s e : option Z) : IGetRowsParams :=
  {| startRow := s; endRow := e;
     successCallback := fun _ _ => Throws (Js.Error "render failed");
     failCallback := Returns |}.

(** ** The page-size selector *)

(** [const pageSizeOptions = [10, 20, 50, 100]] *)
Definition pageSizeOptions : list Z := [10; 20; 50; 100].

(** [<option key={n} value={n}>]: the value attribute of an option is its
    number written as a string. *)
Definition option_value (n : Z) : string := Js.string_of_Z n.

(** [Number(s)] for a string [s] that is a decimal integer literal: digits,
    with an optional minus sign in front.  Every other string is outside
    this model ([None]). *)
Definition Number (s : string) : option Z :=
  option_map Z.of_int (NilZero.int_of_string s).

(** [onChange={(e) => onChangePageSize(Number(e.target.value))}], given
    [e.target.value]. *)
Definition select_onChange (c : PostsListPage) (value : string)
    : option PostsListPage :=
  option_map (onChangePageSize c) (Number value).

(** ** Sequences of handler calls *)

(** What can happen to the component: the grid reports that it is ready,
    or the user picks a value in the selector. *)
Inductive ui_event : Type :=
| GridReady (e : GridReadyEvent)
| Select (value : string).

Definition ui_handle (c : PostsListPage) (ev : ui_event)
    : option PostsListPage :=
  match ev with
  | GridReady e => Some (onGridReady c e)
  | Select value => select_onChange c value
  end.

Fixpoint ui_run (c : PostsListPage) (evs : list ui_event)
    : option PostsListPage :=
  match evs with
  | [] => Some c
  | ev :: rest =>
      match ui_handle c ev with
      | Some c' => ui_run c' rest
      | None => None
      end
  end.

(** The selector offers the values of its options and no other. *)
Definition offered (ev : ui_event) : Prop :=
  match ev with
  | GridReady _ => True
  | Select value => In value (map option_value pageSizeOptions)
  end.

(** The two size settings of the attached grid agree with the state, and
    the attached grid has a datasource. *)
Definition in_sync (c : PostsListPage) : Prop :=
  match gridApiRef c with
  | Some g =>
      cacheBlockSize g = pageSize c /\
      paginationPageSize g = pageSize c /\
      datasource g <> None
  | None => True
  end.

(** ** Strings *)

(** Whether the character [a] occurs in [s]. *)
Fixpoint occurs (a : Ascii.ascii) (s : string) : bool :=
  match s with
  | EmptyString => false
  | String b rest => Ascii.eqb a b || occurs a rest
  end.

(** A caller whose failure continuation throws. *)
Definition failing_window (s e : option Z) : IGetRowsParams :=
  {| startRow := s; endRow := e;
     successCallback := fun _ _ => Returns;
     failCallback := Throws (Js.Error "no overlay") |}.

(** ** The division in doubles *)

(** The quotient [num / den] of two positive integers rounded to the
    nearest integer, ties to the even one. *)
Definition round_half_even (num den : Z) : Z :=
  let q := num / den in
  let r := num mod den in
  if 2 * r <? den then q
  else if den <? 2 * r then q + 1
  else if Z.even q then q else q + 1.

(** The binary exponent of [a / b]: the [k] with [2^k <= a / b < 2^(k+1)],
    for positive [a] and [b]. *)
Definition quotient_exponent (a b : Z) : Z :=
  let k := Z.log2 a - Z.log2 b in
  if 0 <=? k
  then (if a <? b * 2 ^ k then k - 1 else k)
  else (if a * 2 ^ (- k) <? b then k - 1 else k).

(** [Math.floor(a / b)] as line 75 computes it on doubles, for integers
    [a >= 0] and [b > 0] that are doubles themselves: the quotient is
    rounded to 53 significant bits, ties to even, and the result is
    floored.  The exponent range of doubles is not modelled; no quotient of
    two row counts leaves it. *)
Definition double_floor_div (a b : Z) : Z :=
  if a =? 0 then 0
  else
    let e := quotient_exponent a b - 52 in
    if 0 <=? e
    then round_half_even a (b * 2 ^ e) * 2 ^ e
    else round_half_even (a * 2 ^ (- e)) b / 2 ^ (- e).

(** * Properties *)

(** ** Runs of [getRows] *)

Section Runs.

Variable c : PostsListPage.
Variable net : network.
Variable params : IGetRowsParams.

(** The one URL a run of [getRows] asks for. *)
Definition request_url : string :=
  posts_url (page_index (pageSize c) params) (pageSize c).

Let run : M unit := getRows (buildDatasource c) net params.

(** How the [catch] block ends the run. *)
Definition caught : Js.exn + unit :=
  match failCallback params with
  | Returns => inr tt
  | Throws e => inl e
  end.

(** A fetch that fails leads to [failCallback] and to nothing else. *)
Lemma run_of_failed_fetch :
  fetch_fails (net request_url) = true ->
  run = ([Fetch request_url; FailCallback], caught).
Proof.
  subst run. unfold caught, request_url, fetch_fails.
  cbn [getRows buildDatasource]. unfold fetch, call_failCallback.
  destruct (net _) as [e | res]; cbn.
  - intros _. now destruct (failCallback params).
  - destruct (ok res); cbn.
    + destruct (json res) as [e | data]; cbn.
      * intros _. now destruct (failCallback params).
      * destruct data; cbn; try discriminate;
          intros _; now destruct (failCallback params).
    + intros _. now destruct (failCallback params).
Qed.

(** A fetch that does not fail leads to [successCallback], called with the
    two properties read from the body; [failCallback] follows exactly when
    that call throws. *)
Lemma run_of_fetched_body (res : Response) (data content total : Js.value) :
  net request_url = Resolved res ->
  ok res = true ->
  json res = inr data ->
  Js.get data "content" = inr content ->
  Js.get data "totalElements" = inr total ->
  run =
    match successCallback params content total with
    | Returns =>
        ([Fetch request_url; SuccessCallback content total], inr tt)
    | Throws _ =>
        ([Fetch request_url; SuccessCallback content total; FailCallback],
         caught)
    end.
Proof.
  subst run. unfold caught, request_url.
  cbn [getRows buildDatasource]. unfold fetch, call_successCallback,
    call_failCallback.
  intros Hnet Hok Hjson Hc Ht.
  rewrite Hnet. cbn. rewrite Hok. cbn. rewrite Hjson. cbn.
  rewrite Hc. cbn. rewrite Ht. cbn.
  destruct (successCallback params content total); cbn; [reflexivity|].
  now destruct (failCallback params).
Qed.

(** Every body that is neither [null] nor [undefined] has the two
    properties, possibly [undefined]. *)
Lemma get_total (data : Js.value) (k : string) :
  data <> Js.Null -> data <> Js.Undefined ->
  exists v, Js.get data k = inr v.
Proof.
  destruct data; cbn; intros; try congruence; eauto.
Qed.

(** Whatever the network answers, the run starts with the one fetch and
    issues no other. *)
Lemma run_fetches_once : fetched run = [request_url].
Proof.
  destruct (fetch_fails (net request_url)) eqn:Hf.
  - now rewrite (run_of_failed_fetch Hf).
  - unfold fetch_fails in Hf.
    destruct (net request_url) as [e | res] eqn:Hnet; [discriminate|].
    apply orb_false_iff in Hf as [Hok Hbody].
    apply negb_false_iff in Hok.
    destruct (json res) as [e | data] eqn:Hjson; [discriminate|].
    destruct (get_total data "content") as [cnt Hc];
      [now destruct data .. |].
    destruct (get_total data "totalElements") as [tot Ht];
      [now destruct data .. |].
    rewrite (run_of_fetched_body res data cnt tot Hnet Hok Hjson Hc Ht).
    now destruct (successCallback params cnt tot).
Qed.

End Runs.

(** ** The division in doubles and in integers *)

Lemma round_half_even_cases (num den : Z) :
  round_half_even num den = num / den \/
  (round_half_even num den = num / den + 1 /\ den <= 2 * (num mod den)).
Proof.
  unfold round_half_even.
  destruct (Z.ltb_spec (2 * (num mod den)) den); [now left|].
  destruct (Z.ltb_spec den (2 * (num mod den))); [right; split; lia|].
  destruct (Z.even (num / den)); [now left | right; split; lia].
Qed.

(** The exponent found for [a / b] is not too large: scaled by it, the
    quotient has at least 53 bits. *)
Lemma quotient_exponent_lower (a b : Z) :
  0 < a -> 0 < b ->
  quotient_exponent a b <= 52 ->
  2 ^ 52 * b <= a * 2 ^ (52 - quotient_exponent a b).
Proof.
  intros Ha Hb. unfold quotient_exponent.
  pose proof (Z.log2_spec a Ha) as [Hla Hua].
  pose proof (Z.log2_spec b Hb) as [Hlb Hub].
  pose proof (Z.log2_nonneg a) as Hna.
  pose proof (Z.log2_nonneg b) as Hnb.
  set (la := Z.log2 a) in *. set (lb := Z.log2 b) in *.
  destruct (Z.leb_spec 0 (la - lb)) as [Hk | Hk].
  - assert (Hsplit : 2 ^ Z.succ la = 2 ^ Z.succ lb * 2 ^ (la - lb)).
    { rewrite <- Z.pow_add_r by lia. f_equal. lia. }
    assert (Hpos : 0 < 2 ^ (la - lb)) by (apply Z.pow_pos_nonneg; lia).
    destruct (Z.ltb_spec a (b * 2 ^ (la - lb))) as [Hlt | Hge]; intros Hle.
    + replace (52 - (la - lb - 1)) with (53 - (la - lb)) by lia.
      assert (Hp : 2 ^ 53 = 2 ^ (la - lb) * 2 ^ (53 - (la - lb))).
      { rewrite <- Z.pow_add_r by lia. f_equal. lia. }
      assert (Hq : 0 < 2 ^ (53 - (la - lb))) by (apply Z.pow_pos_nonneg; lia).
      assert (H2a : b * 2 ^ (la - lb) <= 2 * a).
      { assert (Hs : 2 ^ Z.succ la <= 2 * a)
          by (rewrite Z.pow_succ_r by lia; lia).
        assert (Hm : b * 2 ^ (la - lb) < 2 ^ Z.succ lb * 2 ^ (la - lb))
          by (apply Z.mul_lt_mono_pos_r; assumption).
        lia. }
      change (2 ^ 52) with 4503599627370496.
      change (2 ^ 53) with 9007199254740992 in Hp.
      nia.
    + assert (Hp : 2 ^ 52 = 2 ^ (la - lb) * 2 ^ (52 - (la - lb))).
      { rewrite <- Z.pow_add_r by lia. f_equal. lia. }
      assert (Hq : 0 < 2 ^ (52 - (la - lb))) by (apply Z.pow_pos_nonneg; lia).
      rewrite Hp. nia.
  - assert (Hsplit : 2 ^ lb = 2 ^ la * 2 ^ (- (la - lb))).
    { rewrite <- Z.pow_add_r by lia. f_equal. lia. }
    assert (Hpos : 0 < 2 ^ (- (la - lb))) by (apply Z.pow_pos_nonneg; lia).
    destruct (Z.ltb_spec (a * 2 ^ (- (la - lb))) b) as [Hlt | Hge]; intros _.
    + replace (52 - (la - lb - 1)) with (53 + - (la - lb)) by lia.
      rewrite Z.pow_add_r by lia.
      rewrite Z.pow_succ_r in Hub by lia.
      change (2 ^ 52) with 4503599627370496.
      change (2 ^ 53) with 9007199254740992.
      nia.
    + replace (52 - (la - lb)) with (52 + - (la - lb)) by lia.
      rewrite Z.pow_add_r by lia. nia.
Qed.

Lemma quotient_exponent_safe (a b : Z) :
  0 < a <= Js.MAX_SAFE_INTEGER -> 0 < b -> quotient_exponent a b <= 52.
Proof.
  intros [Ha Hsafe] Hb. unfold quotient_exponent.
  assert (Hla : Z.log2 a < 53).
  { apply Z.log2_lt_pow2; [exact Ha|]. unfold Js.MAX_SAFE_INTEGER in Hsafe.
    change (2 ^ 53) with 9007199254740992. lia. }
  pose proof (Z.log2_nonneg b).
  destruct (Z.leb_spec 0 (Z.log2 a - Z.log2 b));
    [destruct (Z.ltb_spec a (b * 2 ^ (Z.log2 a - Z.log2 b)))
    | destruct (Z.ltb_spec (a * 2 ^ (- (Z.log2 a - Z.log2 b))) b)]; lia.
Qed.

(** Up to [MAX_SAFE_INTEGER] the division in doubles floors to the integer
    quotient: the rounding of the quotient never reaches the next
    integer. *)
Lemma double_floor_div_safe (a b : Z) :
  0 <= a <= Js.MAX_SAFE_INTEGER -> 0 < b -> double_floor_div a b = a / b.
Proof.
  intros [Ha Hsafe] Hb. unfold double_floor_div.
  destruct (Z.eqb_spec a 0) as [-> | Hne]; [now rewrite Z.div_0_l by lia|].
  assert (Hpos : 0 < a) by lia.
  pose proof (quotient_exponent_safe a b (conj Hpos Hsafe) Hb) as Hk.
  pose proof (quotient_exponent_lower a b Hpos Hb Hk) as Hlow.
  set (k := quotient_exponent a b) in *.
  assert (Hs : 0 < 2 ^ (52 - k)) by (apply Z.pow_pos_nonneg; lia).
  assert (Ha53 : a < 2 ^ 53).
  { unfold Js.MAX_SAFE_INTEGER in Hsafe.
    change (2 ^ 53) with 9007199254740992. lia. }
  assert (Hb1 : b < 2 * 2 ^ (52 - k)).
  { change (2 ^ 52) with 4503599627370496 in Hlow.
    change (2 ^ 53) with 9007199254740992 in Ha53. nia. }
  pose proof (Z.div_mod a b ltac:(lia)) as Hdm.
  pose proof (Z.mod_pos_bound a b Hb) as Hr.
  destruct (Z.leb_spec 0 (k - 52)) as [He | He].
  - assert (k = 52) by lia. subst k.
    replace (quotient_exponent a b - 52) with 0 in * by lia.
    replace (52 - quotient_exponent a b) with 0 in * by lia.
    change (2 ^ 0) with 1 in *. rewrite !Z.mul_1_r.
    assert (b = 1) by lia. subst b.
    destruct (round_half_even_cases a 1) as [-> | [_ Hup]]; [reflexivity|].
    rewrite Z.mod_1_r in Hup. lia.
  - replace (- (k - 52)) with (52 - k) by lia.
    set (s := 2 ^ (52 - k)) in *.
    pose proof (Z.div_mod (a * s) b ltac:(lia)) as HDM.
    pose proof (Z.mod_pos_bound (a * s) b Hb) as HR.
    set (Q := a * s / b) in *. set (R := (a * s) mod b) in *.
    set (q := a / b) in *. set (r := a mod b) in *.
    assert (HQ : q * s <= Q < (q + 1) * s) by nia.
    symmetry. apply Z.div_unique_pos with
      (r := round_half_even (a * s) b - q * s); [|lia].
    destruct (round_half_even_cases (a * s) b) as [-> | [-> Hup]];
      fold Q; fold R in Hup || idtac; [lia|].
    split; [lia|].
    assert (Hnot : Q + 1 <> (q + 1) * s); [|lia].
    intros Heq. nia.
Qed.

(** Reading back a number that was written into a string gives the
    number. *)
Lemma Number_string_of_Z (z : Z) : Number (Js.string_of_Z z) = Some z.
Proof.
  unfold Number, Js.string_of_Z.
  rewrite NilZero.isi.
  - cbn. now rewrite DecimalZ.of_to.
  - destruct z as [| p | p]; cbn; try discriminate.
    intros [= H]. now apply (Unsigned.to_uint_nonnil p).
  - destruct z as [| p | p]; cbn; try discriminate.
    intros [= H]. now apply (Unsigned.to_uint_nonnil p).
Qed.

(** ** The page request (C1, C8, C9, C10) *)

(** C1, within the range of exact integers.  For a resolved [startRow >= 0]
    and a captured [pageSize > 0], both at most [MAX_SAFE_INTEGER], the page
    index is the floor of [startRow / pageSize], in doubles as in integers:
    the index [q >= 0] of the page that contains the row
    ([q * pageSize <= startRow < (q + 1) * pageSize]).  The run sends one
    request, whose query carries the digits of [q] as [page] and the digits
    of [pageSize] as [size]; both read back as these numbers. *)
Theorem getRows_requests_page_of_startRow
    (c : PostsListPage) (net : network) (params : IGetRowsParams) :
  0 <= resolved_startRow params <= Js.MAX_SAFE_INTEGER ->
  0 < pageSize c <= Js.MAX_SAFE_INTEGER ->
  let q := resolved_startRow params / pageSize c in
  page_index (pageSize c) params = Js.Int q /\
  double_floor_div (resolved_startRow params) (pageSize c) = q /\
  0 <= q /\
  q * pageSize c <= resolved_startRow params < (q + 1) * pageSize c /\
  fetched (getRows (buildDatasource c) net params)
  = [String.append "http://localhost:8088/api/posts?page="
       (String.append (Js.string_of_Z q)
          (String.append "&size=" (Js.string_of_Z (pageSize c))))] /\
  Number (Js.string_of_Z q) = Some q /\
  Number (Js.string_of_Z (pageSize c)) = Some (pageSize c).
Proof.
  intros [Hs Hsafe] [Hp _] q.
  assert (Hpage : page_index (pageSize c) params = Js.Int q).
  { unfold page_index, Js.floor_div.
    destruct (Z.eqb_spec (pageSize c) 0); [lia | reflexivity]. }
  pose proof (Z.mul_div_le (resolved_startRow params) (pageSize c) Hp).
  pose proof (Z.mul_succ_div_gt (resolved_startRow params) (pageSize c) Hp).
  pose proof (Z.div_pos (resolved_startRow params) (pageSize c) Hs Hp).
  split; [exact Hpage|].
  split; [now apply double_floor_div_safe|].
  split; [assumption|]. split; [subst q; nia|].
  split; [|split; apply Number_string_of_Z].
  rewrite run_fetches_once. unfold request_url. now rewrite Hpage.
Qed.

(** The scenario of C1: with page size 10, the window from row 25 to row 35
    is asked from the endpoint as page 2 of size 10. *)
Lemma getRows_requests_page_of_startRow_witness :
  double_floor_div 25 10 = 2 /\
  fetched (getRows (buildDatasource mount)
             (always {| status := 200; json := inr page0 |})
             (window (Some 25) (Some 35)))
  = ["http://localhost:8088/api/posts?page=2&size=10"].
Proof.
  destruct (getRows_requests_page_of_startRow mount
              (always {| status := 200; json := inr page0 |})
              (window (Some 25) (Some 35)))
    as (_ & Hd & _ & _ & Hf & _);
    [unfold Js.MAX_SAFE_INTEGER; cbn; lia ..|].
  split; [exact Hd | exact Hf].
Defined.

(** C1, as stated for every [startRow >= 0], fails beyond the exact
    integers: for row 2^55 and page size 10 the division of line 75 rounds
    the quotient up before it is floored, and the page index it yields is
    one more than the floor of the quotient; that page starts after the
    row. *)
Lemma getRows_page_beyond_safe_integers :
  let startRow := 36028797018963968 in
  let size := 10 in
  0 <= startRow /\ 0 < size /\
  double_floor_div startRow size = 3602879701896397 /\
  startRow / size = 3602879701896396 /\
  ~ (double_floor_div startRow size * size <= startRow).
Proof.
  cbv zeta.
  assert (E : double_floor_div 36028797018963968 10 = 3602879701896397)
    by (vm_compute; reflexivity).
  rewrite E. repeat split; lia.
Qed.

(** C8.  An absent [startRow] resolves to 0 and an absent [endRow] to the
    resolved [startRow] plus the captured page size; the request of a run
    without [startRow] is the one for row 0. *)
Theorem getRows_row_defaults
    (c : PostsListPage) (net : network) (s e : option Z)
    (succ : Js.value -> Js.value -> completion) (fail : completion) :
  resolved_startRow
    {| startRow := None; endRow := e;
       successCallback := succ; failCallback := fail |} = 0 /\
  resolved_endRow (pageSize c)
    {| startRow := s; endRow := None;
       successCallback := succ; failCallback := fail |}
  = resolved_startRow
      {| startRow := s; endRow := None;
         successCallback := succ; failCallback := fail |} + pageSize c /\
  fetched (getRows (buildDatasource c) net
             {| startRow := None; endRow := e;
                successCallback := succ; failCallback := fail |})
  = [posts_url (Js.floor_div 0 (pageSize c)) (pageSize c)].
Proof.
  split; [reflexivity|]. split; [reflexivity|].
  now rewrite run_fetches_once.
Qed.

(** C9.  Two requests with the same [startRow] and [endRow], handled by the
    same datasource, compute the same page index, and each of the two runs
    sends exactly one request, to the same URL: the same page at the same
    size, whatever the network answers and whatever their callbacks do. *)
Theorem getRows_same_window_same_page
    (c : PostsListPage) (net1 net2 : network) (p1 p2 : IGetRowsParams) :
  startRow p1 = startRow p2 ->
  endRow p1 = endRow p2 ->
  page_index (pageSize c) p1 = page_index (pageSize c) p2 /\
  fetched (getRows (buildDatasource c) net1 p1)
  = [String.append "http://localhost:8088/api/posts?page="
       (String.append (Js.string_of_number (page_index (pageSize c) p1))
          (String.append "&size=" (Js.string_of_Z (pageSize c))))] /\
  fetched (getRows (buildDatasource c) net2 p2)
  = [String.append "http://localhost:8088/api/posts?page="
       (String.append (Js.string_of_number (page_index (pageSize c) p1))
          (String.append "&size=" (Js.string_of_Z (pageSize c))))].
Proof.
  intros Hs _.
  assert (Hpage : page_index (pageSize c) p1 = page_index (pageSize c) p2).
  { unfold page_index, resolved_startRow. now rewrite Hs. }
  split; [exact Hpage|].
  rewrite !run_fetches_once. unfold request_url. rewrite <- Hpage.
  now split.
Qed.

Lemma getRows_same_window_same_page_witness :
  fetched (getRows (buildDatasource mount)
             (always {| status := 200; json := inr page0 |})
             (window (Some 25) (Some 35)))
  = ["http://localhost:8088/api/posts?page=2&size=10"] /\
  fetched (getRows (buildDatasource mount)
             (always {| status := 500; json := inl Js.SyntaxError |})
             (throwing_window (Some 25) (Some 35)))
  = ["http://localhost:8088/api/posts?page=2&size=10"].
Proof.
  exact (proj2 (getRows_same_window_same_page mount
           (always {| status := 200; json := inr page0 |})
           (always {| status := 500; json := inl Js.SyntaxError |})
           (window (Some 25) (Some 35))
           (throwing_window (Some 25) (Some 35)) eq_refl eq_refl)).
Defined.

(** C10.  [endRow] is resolved and then never read: two requests that agree
    on [startRow] and on what their callbacks do, but not on [endRow],
    compute the same page index and have the same run on the same network:
    the same request, the same calls of the callbacks with the same
    arguments, the same settlement. *)
Theorem getRows_ignores_endRow
    (c : PostsListPage) (net : network) (p1 p2 : IGetRowsParams) :
  startRow p1 = startRow p2 ->
  (forall rows lastRow,
      successCallback p1 rows lastRow = successCallback p2 rows lastRow) ->
  failCallback p1 = failCallback p2 ->
  page_index (pageSize c) p1 = page_index (pageSize c) p2 /\
  getRows (buildDatasource c) net p1 = getRows (buildDatasource c) net p2.
Proof.
  intros Hs Hsucc Hfail.
  assert (Hpage : page_index (pageSize c) p1 = page_index (pageSize c) p2).
  { unfold page_index, resolved_startRow. now rewrite Hs. }
  split; [exact Hpage|].
  cbn [getRows buildDatasource]. rewrite Hpage.
  unfold fetch, call_successCallback, call_failCallback. rewrite Hfail.
  destruct (net _) as [ex | res]; cbn; [reflexivity|].
  destruct (ok res); cbn; [|reflexivity].
  destruct (json res) as [ex | data]; cbn; [reflexivity|].
  destruct (Js.get data "content") as [ex | cnt]; cbn; [reflexivity|].
  destruct (Js.get data "totalElements") as [ex | tot]; cbn; [reflexivity|].
  now rewrite Hsucc.
Qed.

Lemma getRows_ignores_endRow_witness :
  getRows (buildDatasource mount)
    (always {| status := 200; json := inr page0 |})
    (window (Some 20) (Some 30))
  = getRows (buildDatasource mount)
      (always {| status := 200; json := inr page0 |})
      (window (Some 20) None).
Proof.
  refine (proj2 (getRows_ignores_endRow mount
            (always {| status := 200; json := inr page0 |})
            (window (Some 20) (Some 30)) (window (Some 20) None) _ _ _));
    reflexivity.
Defined.

(** ** The two continuations (C3, C4, C5) *)

(** A decoded envelope is read back by the two property reads of
    [getRows]. *)
Lemma decode_reads (data : Js.value) (env : Envelope.PageResponse) :
  Envelope.decode data = Some env ->
  Js.get data "content" = inr (Js.Arr (Envelope.content env)) /\
  Js.get data "totalElements" = inr (Js.Num (Envelope.totalElements env)).
Proof.
  unfold Envelope.decode.
  destruct data as [| | | | | |props]; try discriminate.
  cbn [Js.get].
  destruct (Js.lookup "content" props); try discriminate.
  destruct (Js.lookup "page" props); try discriminate.
  destruct (Js.lookup "size" props); try discriminate.
  destruct (Js.lookup "totalElements" props); try discriminate.
  destruct (Js.lookup "totalPages" props); try discriminate.
  destruct (forallb Envelope.is_post items); try discriminate.
  intros [= <-]. now split.
Qed.

(** When the success continuation returns, a run calls exactly one of the
    two continuations, exactly once. *)
Lemma getRows_one_continuation_when_success_returns
    (c : PostsListPage) (net : network) (params : IGetRowsParams) :
  (forall rows lastRow, successCallback params rows lastRow = Returns) ->
  (List.length (successes (getRows (buildDatasource c) net params))
   + failures (getRows (buildDatasource c) net params) = 1)%nat.
Proof.
  intros Hret.
  destruct (fetch_fails (net (request_url c params))) eqn:Hf.
  - now rewrite (run_of_failed_fetch c net params Hf).
  - unfold fetch_fails in Hf.
    destruct (net (request_url c params)) as [e | res] eqn:Hnet;
      [discriminate|].
    apply orb_false_iff in Hf as [Hok Hbody].
    apply negb_false_iff in Hok.
    destruct (json res) as [e | data] eqn:Hjson; [discriminate|].
    destruct (get_total data "content") as [cnt Hc];
      [now destruct data .. |].
    destruct (get_total data "totalElements") as [tot Ht];
      [now destruct data .. |].
    rewrite (run_of_fetched_body c net params res data cnt tot
               Hnet Hok Hjson Hc Ht).
    now rewrite Hret.
Qed.

(** C3, as the code has it.  When [fetch] rejects, the status is outside
    200-299, the body is not JSON or the body is [null], the run is the
    request followed by one call of [failCallback], which takes no argument;
    [successCallback] is not called; and the promise of [getRows] is
    fulfilled whenever [failCallback] returns. *)
Theorem getRows_failed_fetch_calls_failCallback
    (c : PostsListPage) (net : network) (params : IGetRowsParams) :
  fetch_fails (net (request_url c params)) = true ->
  events (getRows (buildDatasource c) net params)
  = [Fetch (request_url c params); FailCallback] /\
  successes (getRows (buildDatasource c) net params) = [] /\
  failures (getRows (buildDatasource c) net params) = 1%nat /\
  (failCallback params = Returns ->
   settled (getRows (buildDatasource c) net params) = Fulfilled).
Proof.
  intros Hf. rewrite (run_of_failed_fetch c net params Hf).
  repeat split. unfold settled, caught. cbn. now intros ->.
Qed.

(** A 500 answer ends in [failCallback] only. *)
Lemma getRows_failed_fetch_calls_failCallback_witness :
  events (getRows (buildDatasource mount)
            (always {| status := 500; json := inr page0 |})
            (window (Some 0) (Some 10)))
  = [Fetch "http://localhost:8088/api/posts?page=0&size=10"; FailCallback]
  /\ settled (getRows (buildDatasource mount)
                (always {| status := 500; json := inr page0 |})
                (window (Some 0) (Some 10))) = Fulfilled.
Proof.
  destruct (getRows_failed_fetch_calls_failCallback mount
              (always {| status := 500; json := inr page0 |})
              (window (Some 0) (Some 10)) eq_refl)
    as (Hev & _ & _ & Hset).
  split; [exact Hev | exact (Hset eq_refl)].
Defined.

(** C3, as stated, fails twice.  The body [{}] is JSON but not a page
    envelope, so the fetch counts as failed, and yet the run calls
    [successCallback] (with [undefined] twice) and does not call
    [failCallback].  And on a 500 answer, a [failCallback] that throws makes
    the promise of [getRows] reject: that exception leaves the
    datasource. *)
Lemma getRows_non_envelope_body_reaches_successCallback :
  let res := {| status := 200; json := inr (Js.Obj []) |} in
  let run :=
    getRows (buildDatasource mount) (always res) (window (Some 0) (Some 10)) in
  let res500 := {| status := 500; json := inr page0 |} in
  let run500 :=
    getRows (buildDatasource mount) (always res500)
      (failing_window (Some 0) (Some 10)) in
  (Envelope.failed_page_fetch res = true /\
   successes run = [(Js.Undefined, Js.Undefined)] /\
   failures run = 0%nat) /\
  (Envelope.failed_page_fetch res500 = true /\
   settled run500 = Rejected (Js.Error "no overlay")).
Proof.
  repeat split.
Qed.

(** C4.  When the fetch succeeds and the body decodes as an envelope, the
    success continuation is called once, with the content array of the
    envelope as it was received and with its [totalElements]. *)
Theorem getRows_delivers_envelope
    (c : PostsListPage) (net : network) (params : IGetRowsParams)
    (res : Response) (data : Js.value) (env : Envelope.PageResponse) :
  net (request_url c params) = Resolved res ->
  ok res = true ->
  json res = inr data ->
  Envelope.decode data = Some env ->
  Z.of_nat (List.length (Envelope.content env)) <= pageSize c ->
  successes (getRows (buildDatasource c) net params)
  = [(Js.Arr (Envelope.content env), Js.Num (Envelope.totalElements env))].
Proof.
  intros Hnet Hok Hjson Hdec _.
  destruct (decode_reads data env Hdec) as [Hc Ht].
  rewrite (run_of_fetched_body c net params res data _ _ Hnet Hok Hjson Hc Ht).
  now destruct (successCallback params _ _).
Qed.

Lemma getRows_delivers_envelope_witness :
  successes (getRows (buildDatasource mount)
               (always {| status := 200; json := inr page0 |})
               (window (Some 0) (Some 10)))
  = [(Js.Arr [post1], Js.Num 1)].
Proof.
  refine (getRows_delivers_envelope mount
            (always {| status := 200; json := inr page0 |})
            (window (Some 0) (Some 10))
            {| status := 200; json := inr page0 |} page0
            {| Envelope.content := [post1]; Envelope.page := 0;
               Envelope.size := 10; Envelope.totalElements := 1;
               Envelope.totalPages := 1 |} _ _ _ _ _);
    try reflexivity.
  cbn. lia.
Defined.

(** C5 fails on a success continuation that throws: the call is inside the
    [try] block, so the [catch] block runs after it, and the run calls both
    continuations. *)
Theorem getRows_throwing_successCallback_calls_both :
  let run :=
    getRows (buildDatasource mount)
      (always {| status := 200; json := inr page0 |})
      (throwing_window (Some 0) (Some 10)) in
  events run
  = [Fetch "http://localhost:8088/api/posts?page=0&size=10";
     SuccessCallback (Js.Arr [post1]) (Js.Num 1);
     FailCallback] /\
  List.length (successes run) = 1%nat /\
  failures run = 1%nat.
Proof.
  repeat split.
Qed.

(** ** Changing the page size (C2, C6, C7) *)

(** A datasource asks for pages of the size its render saw, whatever the
    state of the component has become since. *)
Lemma datasource_keeps_its_pageSize
    (c : PostsListPage) (net : network) (params : IGetRowsParams) :
  fetched (getRows (buildDatasource c) net params)
  = [posts_url (Js.floor_div (resolved_startRow params) (pageSize c))
       (pageSize c)].
Proof. apply run_fetches_once. Qed.

(** [onChangePageSize] leaves the datasource of the grid as it was. *)
Lemma onChangePageSize_keeps_datasource (c : PostsListPage) (next : Z) :
  option_map datasource (gridApiRef (onChangePageSize c next))
  = option_map datasource (gridApiRef c).
Proof.
  unfold onChangePageSize, setPageSize. cbn [gridApiRef].
  now destruct (gridApiRef c).
Qed.

(** [onGridReady] is the one handler that installs a datasource. *)
Lemma onGridReady_installs_datasource (c : PostsListPage) (e : GridReadyEvent) :
  option_map datasource (gridApiRef (onGridReady c e))
  = Some (Some (buildDatasource c)).
Proof. reflexivity. Qed.

(** C2 fails once the grid is attached: after the page size goes from 10 to
    50, the state holds 50, but a window request for row 0 still reaches the
    datasource installed when the grid became ready, which asks for page 0
    at size 10. *)
Theorem window_after_onChangePageSize_uses_old_size (net : network) :
  let c := onChangePageSize (onGridReady mount {| api := AgGridReact mount |}) 50 in
  pageSize c = 50 /\
  fetched (windowRequest c net (window (Some 0) None))
  = ["http://localhost:8088/api/posts?page=0&size=10"].
Proof.
  split; [reflexivity|].
  change (fetched (getRows (buildDatasource mount) net (window (Some 0) None))
          = ["http://localhost:8088/api/posts?page=0&size=10"]).
  now rewrite run_fetches_once.
Qed.

(** C6 fails in its second half: the page-size handler installs no new
    datasource.  After the change from 10 to 50 the grid still holds the
    datasource built for 10, and the window that starts at row 60 is asked
    as page 6 of size 10, not as page 1 of size 50. *)
Theorem datasource_not_rebuilt_on_page_size_change (net : network) :
  let c0 := onGridReady mount {| api := AgGridReact mount |} in
  let c1 := onChangePageSize c0 50 in
  pageSize c1 = 50 /\
  option_map datasource (gridApiRef c1) = Some (Some (buildDatasource mount)) /\
  option_map cacheBlockSize (gridApiRef c1) = Some 50 /\
  fetched (windowRequest c1 net (window (Some 60) (Some 110)))
  = ["http://localhost:8088/api/posts?page=6&size=10"] /\
  fetched (getRows (buildDatasource c1) net (window (Some 60) (Some 110)))
  = ["http://localhost:8088/api/posts?page=1&size=50"].
Proof.
  split; [reflexivity|]. split; [reflexivity|]. split; [reflexivity|]. split.
  - change (fetched (getRows (buildDatasource mount) net
                       (window (Some 60) (Some 110)))
            = ["http://localhost:8088/api/posts?page=6&size=10"]).
    now rewrite run_fetches_once.
  - now rewrite run_fetches_once.
Qed.

(** C7.  [onChangePageSize next] stores [next] in the state.  With a grid
    attached, it leaves the grid with cache block size [next], pagination
    page size [next], pagination on the first page and no cached row block;
    with no grid attached, it does nothing but the state update. *)
Theorem onChangePageSize_reconfigures_grid (c : PostsListPage) (next : Z) :
  pageSize (onChangePageSize c next) = next /\
  (forall g, gridApiRef c = Some g ->
     exists g',
       gridApiRef (onChangePageSize c next) = Some g' /\
       cacheBlockSize g' = next /\
       paginationPageSize g' = next /\
       paginationCurrentPage g' = 0 /\
       infiniteCache g' = []) /\
  (gridApiRef c = None ->
   onChangePageSize c next = {| pageSize := next; gridApiRef := None |}).
Proof.
  split; [|split].
  - unfold onChangePageSize. destruct (gridApiRef c); reflexivity.
  - intros g Hg. unfold onChangePageSize. rewrite Hg.
    eexists. split; [reflexivity|]. now cbn.
  - intros Hg. unfold onChangePageSize, setPageSize. now rewrite Hg.
Qed.

(** A grid on its fourth page with one cached block, and the component
    before the grid is ready. *)
Lemma onChangePageSize_reconfigures_grid_witness :
  let g :=
    {| cacheBlockSize := 10; paginationPageSize := 10;
       datasource := Some (buildDatasource mount);
       paginationCurrentPage := 3;
       infiniteCache := [(0, Js.Arr [post1])] |} in
  (exists g',
     gridApiRef
       (onChangePageSize {| pageSize := 10; gridApiRef := Some g |} 50)
     = Some g' /\
     cacheBlockSize g' = 50 /\ paginationPageSize g' = 50 /\
     paginationCurrentPage g' = 0 /\ infiniteCache g' = []) /\
  onChangePageSize mount 50 = {| pageSize := 50; gridApiRef := None |}.
Proof.
  intros g. split.
  - exact (proj1 (proj2 (onChangePageSize_reconfigures_grid
                           {| pageSize := 10; gridApiRef := Some g |} 50))
             g eq_refl).
  - exact (proj2 (proj2 (onChangePageSize_reconfigures_grid mount 50)) eq_refl).
Defined.

(** ** More on the runs of [getRows] *)

(** The two ways a run can go. *)
Lemma run_cases (c : PostsListPage) (net : network) (params : IGetRowsParams) :
  (fetch_fails (net (request_url c params)) = true /\
   getRows (buildDatasource c) net params
   = ([Fetch (request_url c params); FailCallback], caught params)) \/
  (exists res data cnt tot,
     fetch_fails (net (request_url c params)) = false /\
     net (request_url c params) = Resolved res /\
     ok res = true /\
     json res = inr data /\
     Js.get data "content" = inr cnt /\
     Js.get data "totalElements" = inr tot /\
     getRows (buildDatasource c) net params
     = match successCallback params cnt tot with
       | Returns =>
           ([Fetch (request_url c params); SuccessCallback cnt tot], inr tt)
       | Throws _ =>
           ([Fetch (request_url c params); SuccessCallback cnt tot;
             FailCallback], caught params)
       end).
Proof.
  destruct (fetch_fails (net (request_url c params))) eqn:Hf.
  - left. split; [reflexivity|]. now apply run_of_failed_fetch.
  - right. unfold fetch_fails in Hf.
    destruct (net (request_url c params)) as [e | res] eqn:Hnet;
      [discriminate|].
    apply orb_false_iff in Hf as [Hok Hbody].
    apply negb_false_iff in Hok.
    destruct (json res) as [e | data] eqn:Hjson; [discriminate|].
    destruct (get_total data "content") as [cnt Hc];
      [now destruct data .. |].
    destruct (get_total data "totalElements") as [tot Ht];
      [now destruct data .. |].
    exists res, data, cnt, tot.
    repeat (split; [assumption || reflexivity|]).
    now apply (run_of_fetched_body c net params res data).
Qed.

(** A key that an object does not bind reads as [undefined]. *)
Lemma lookup_absent (k : string) (props : list (string * Js.value)) :
  (forall v, ~ In (k, v) props) -> Js.lookup k props = Js.Undefined.
Proof.
  induction props as [| [k' v'] rest IH]; intros Habs; [reflexivity|].
  cbn [Js.lookup]. destruct (String.eqb_spec k k') as [-> | Hne].
  - exfalso. apply (Habs v'). now left.
  - apply IH. intros v Hin. apply (Habs v). now right.
Qed.

(** X1.  Whatever the network answers and whatever the success
    continuation does, the promise of [getRows] is fulfilled when the
    failure continuation returns: no error of the fetch, of the decoding or
    of the success continuation leaves the datasource. *)
Theorem getRows_fulfilled_when_failCallback_returns
    (c : PostsListPage) (net : network) (params : IGetRowsParams) :
  failCallback params = Returns ->
  settled (getRows (buildDatasource c) net params) = Fulfilled.
Proof.
  intros Hfail.
  destruct (run_cases c net params)
    as [[_ ->] | (res & data & cnt & tot & _ & _ & _ & _ & _ & _ & ->)].
  - unfold settled, caught. cbn. now rewrite Hfail.
  - destruct (successCallback params cnt tot); [reflexivity|].
    unfold settled, caught. cbn. now rewrite Hfail.
Qed.

Lemma getRows_fulfilled_when_failCallback_returns_witness :
  settled (getRows (buildDatasource mount)
             (fun _ => NetworkError Js.TypeError)
             (throwing_window (Some 0) (Some 10))) = Fulfilled.
Proof.
  exact (getRows_fulfilled_when_failCallback_returns mount
           (fun _ => NetworkError Js.TypeError)
           (throwing_window (Some 0) (Some 10)) eq_refl).
Defined.

(** X2.  The promise of [getRows] rejects only with what the failure
    continuation itself threw, after that continuation was called: the
    error that led to the [catch] block is dropped. *)
Theorem getRows_rejects_only_with_failCallback_exception
    (c : PostsListPage) (net : network) (params : IGetRowsParams)
    (e : Js.exn) :
  settled (getRows (buildDatasource c) net params) = Rejected e ->
  failCallback params = Throws e /\
  failures (getRows (buildDatasource c) net params) = 1%nat.
Proof.
  destruct (run_cases c net params)
    as [[_ ->] | (res & data & cnt & tot & _ & _ & _ & _ & _ & _ & ->)].
  - unfold settled, caught. cbn.
    destruct (failCallback params); cbn; [discriminate|].
    intros [= ->]. now split.
  - destruct (successCallback params cnt tot); [discriminate|].
    unfold settled, caught. cbn.
    destruct (failCallback params); cbn; [discriminate|].
    intros [= ->]. now split.
Qed.

Lemma getRows_rejects_only_with_failCallback_exception_witness :
  failCallback (failing_window (Some 0) (Some 10))
  = Throws (Js.Error "no overlay") /\
  failures (getRows (buildDatasource mount)
              (always {| status := 404; json := inl Js.SyntaxError |})
              (failing_window (Some 0) (Some 10))) = 1%nat.
Proof.
  exact (getRows_rejects_only_with_failCallback_exception mount
           (always {| status := 404; json := inl Js.SyntaxError |})
           (failing_window (Some 0) (Some 10)) (Js.Error "no overlay")
           eq_refl).
Defined.

(** X3.  Every run has one of three shapes: the request and then the
    failure continuation; the request and then the success continuation;
    or the request, the success continuation and then the failure
    continuation.  So the request comes first, a continuation is always
    called, neither is called twice, and the failure continuation never
    precedes the success continuation. *)
Theorem getRows_trace_shape
    (c : PostsListPage) (net : network) (params : IGetRowsParams) :
  let run := getRows (buildDatasource c) net params in
  let url := posts_url (page_index (pageSize c) params) (pageSize c) in
  events run = [Fetch url; FailCallback] \/
  exists rows lastRow,
    events run = [Fetch url; SuccessCallback rows lastRow] \/
    events run = [Fetch url; SuccessCallback rows lastRow; FailCallback].
Proof.
  cbv zeta. fold (request_url c params).
  destruct (run_cases c net params)
    as [[_ ->] | (res & data & cnt & tot & _ & _ & _ & _ & _ & _ & ->)].
  - now left.
  - right. exists cnt, tot.
    destruct (successCallback params cnt tot); [now left | now right].
Qed.

(** X4.  The success continuation is left uncalled exactly when [fetch]
    rejects, the status is outside 200-299, [res.json()] rejects, or the
    body is [null]. *)
Theorem getRows_no_success_iff_fetch_fails
    (c : PostsListPage) (net : network) (params : IGetRowsParams) :
  successes (getRows (buildDatasource c) net params) = [] <->
  fetch_fails
    (net (posts_url (page_index (pageSize c) params) (pageSize c))) = true.
Proof.
  fold (request_url c params).
  destruct (run_cases c net params)
    as [[Hf ->] | (res & data & cnt & tot & Hf & _ & _ & _ & _ & _ & ->)].
  - now split.
  - rewrite Hf. destruct (successCallback params cnt tot); now split.
Qed.

(** X5.  A 2xx answer whose body is an object without a [totalElements]
    property reaches the success continuation with [lastRow] undefined: the
    datasource passes what it reads and substitutes nothing for a missing
    total. *)
Theorem getRows_missing_total_is_undefined
    (c : PostsListPage) (net : network) (params : IGetRowsParams)
    (res : Response) (props : list (string * Js.value)) :
  net (request_url c params) = Resolved res ->
  ok res = true ->
  json res = inr (Js.Obj props) ->
  (forall v, ~ In ("totalElements", v) props) ->
  successes (getRows (buildDatasource c) net params)
  = [(Js.lookup "content" props, Js.Undefined)].
Proof.
  intros Hnet Hok Hjson Habs.
  rewrite (run_of_fetched_body c net params res (Js.Obj props)
             (Js.lookup "content" props) Js.Undefined Hnet Hok Hjson).
  - now destruct (successCallback params _ _).
  - reflexivity.
  - cbn [Js.get]. now rewrite (lookup_absent _ _ Habs).
Qed.

Lemma getRows_missing_total_is_undefined_witness :
  successes (getRows (buildDatasource mount)
               (always {| status := 200;
                          json := inr (Js.Obj [("content", Js.Arr [post1])]) |})
               (window (Some 0) (Some 10)))
  = [(Js.Arr [post1], Js.Undefined)].
Proof.
  refine (getRows_missing_total_is_undefined mount
            (always {| status := 200;
                       json := inr (Js.Obj [("content", Js.Arr [post1])]) |})
            (window (Some 0) (Some 10))
            {| status := 200;
               json := inr (Js.Obj [("content", Js.Arr [post1])]) |}
            [("content", Js.Arr [post1])] eq_refl eq_refl eq_refl _).
  intros v [H | []]. discriminate H.
Defined.

(** X6.  A 2xx answer whose body is JSON but not an object (an array, a
    string, a number or a boolean) is not treated as a failure: the success
    continuation is called with [undefined] for the rows and for the
    total. *)
Theorem getRows_non_object_body_gives_undefined
    (c : PostsListPage) (net : network) (params : IGetRowsParams)
    (res : Response) (data : Js.value) :
  net (request_url c params) = Resolved res ->
  ok res = true ->
  json res = inr data ->
  (exists items, data = Js.Arr items) \/ (exists s, data = Js.Str s) \/
  (exists z, data = Js.Num z) \/ (exists b, data = Js.Bool b) ->
  successes (getRows (buildDatasource c) net params)
  = [(Js.Undefined, Js.Undefined)].
Proof.
  intros Hnet Hok Hjson Hkind.
  rewrite (run_of_fetched_body c net params res data
             Js.Undefined Js.Undefined Hnet Hok Hjson).
  - now destruct (successCallback params _ _).
  - destruct Hkind as [[? ->] | [[? ->] | [[? ->] | [? ->]]]]; reflexivity.
  - destruct Hkind as [[? ->] | [[? ->] | [[? ->] | [? ->]]]]; reflexivity.
Qed.

Lemma getRows_non_object_body_gives_undefined_witness :
  successes (getRows (buildDatasource mount)
               (always {| status := 200; json := inr (Js.Arr [post1]) |})
               (window (Some 0) (Some 10)))
  = [(Js.Undefined, Js.Undefined)].
Proof.
  refine (getRows_non_object_body_gives_undefined mount
            (always {| status := 200; json := inr (Js.Arr [post1]) |})
            (window (Some 0) (Some 10))
            {| status := 200; json := inr (Js.Arr [post1]) |}
            (Js.Arr [post1]) eq_refl eq_refl eq_refl _).
  left. exists [post1]. reflexivity.
Defined.

(** X7.  Nothing guards the division: with a captured page size of 0 the
    request is still sent, and its page is [NaN] for row 0, [Infinity] for
    a positive row and [-Infinity] for a negative one. *)
Theorem getRows_zero_pageSize
    (c : PostsListPage) (net : network) (params : IGetRowsParams) :
  pageSize c = 0 ->
  fetched (getRows (buildDatasource c) net params)
  = [String.append "http://localhost:8088/api/posts?page="
       (String.append
          (if resolved_startRow params =? 0 then "NaN"
           else if 0 <? resolved_startRow params then "Infinity"
           else "-Infinity")
          "&size=0")].
Proof.
  intros Hz. rewrite run_fetches_once.
  unfold request_url, page_index, Js.floor_div. rewrite Hz. cbn [Z.eqb].
  destruct (Z.eqb_spec (resolved_startRow params) 0) as [-> | Hne];
    [reflexivity|].
  destruct (Z.ltb_spec 0 (resolved_startRow params)); [reflexivity|].
  destruct (Z.ltb_spec (resolved_startRow params) 0); [reflexivity | lia].
Qed.

Lemma getRows_zero_pageSize_witness :
  fetched (getRows (buildDatasource (setPageSize 0 mount))
             (always {| status := 200; json := inr page0 |})
             (window (Some 30) (Some 40)))
  = ["http://localhost:8088/api/posts?page=Infinity&size=0"].
Proof.
  exact (getRows_zero_pageSize (setPageSize 0 mount)
           (always {| status := 200; json := inr page0 |})
           (window (Some 30) (Some 40)) eq_refl).
Defined.

(** X8.  A negative [startRow] is not clamped: for a row down to
    [- MAX_SAFE_INTEGER] and a positive page size up to [MAX_SAFE_INTEGER],
    the page index is the negative floor, so row -1 belongs to page -1 and
    not to page 0. *)
Theorem getRows_negative_startRow_floors_down
    (c : PostsListPage) (net : network) (params : IGetRowsParams) :
  - Js.MAX_SAFE_INTEGER <= resolved_startRow params < 0 ->
  0 < pageSize c <= Js.MAX_SAFE_INTEGER ->
  exists q,
    q < 0 /\
    q * pageSize c <= resolved_startRow params < (q + 1) * pageSize c /\
    fetched (getRows (buildDatasource c) net params)
    = [String.append "http://localhost:8088/api/posts?page="
         (String.append (Js.string_of_Z q)
            (String.append "&size=" (Js.string_of_Z (pageSize c))))].
Proof.
  intros [_ Hs] [Hp _]. exists (resolved_startRow params / pageSize c).
  pose proof (Z.mul_div_le (resolved_startRow params) (pageSize c) Hp).
  pose proof (Z.mul_succ_div_gt (resolved_startRow params) (pageSize c) Hp).
  split; [nia|]. split; [nia|].
  rewrite run_fetches_once. unfold request_url, page_index, Js.floor_div.
  destruct (Z.eqb_spec (pageSize c) 0); [lia | reflexivity].
Qed.

Lemma getRows_negative_startRow_floors_down_witness :
  exists q,
    q < 0 /\
    q * 10 <= -1 < (q + 1) * 10 /\
    fetched (getRows (buildDatasource mount)
               (always {| status := 200; json := inr page0 |})
               (window (Some (-1)) (Some 9)))
    = [String.append "http://localhost:8088/api/posts?page="
         (String.append (Js.string_of_Z q) "&size=10")].
Proof.
  refine (getRows_negative_startRow_floors_down mount
            (always {| status := 200; json := inr page0 |})
            (window (Some (-1)) (Some 9)) _ _);
    unfold Js.MAX_SAFE_INTEGER; cbn; lia.
Defined.

(** ** Numbers in strings *)

Lemma string_of_Z_inj (z z' : Z) :
  Js.string_of_Z z = Js.string_of_Z z' -> z = z'.
Proof.
  intros H. pose proof (Number_string_of_Z z) as Hz.
  rewrite H, Number_string_of_Z in Hz. now injection Hz.
Qed.

Lemma digits_without_ampersand (s : string) (d : Decimal.uint) :
  NilEmpty.uint_of_string s = Some d -> occurs "&"%char s = false.
Proof.
  revert d. induction s as [| a s IH]; intros d; [reflexivity|].
  cbn [NilEmpty.uint_of_string occurs].
  destruct (NilEmpty.uint_of_string s) as [d' |]; [|discriminate].
  intros H. rewrite (IH d' eq_refl), orb_false_r.
  apply uint_of_char_spec in H.
  destruct H as [[-> _] | [[-> _] | [[-> _] | [[-> _] | [[-> _] |
                 [[-> _] | [[-> _] | [[-> _] | [[-> _] | [-> _]]]]]]]]]];
    reflexivity.
Qed.

Lemma literal_without_ampersand (s : string) (z : Z) :
  Number s = Some z -> occurs "&"%char s = false.
Proof.
  unfold Number, NilZero.int_of_string.
  destruct s as [| a s]; [discriminate|].
  destruct (Ascii.eqb_spec a "-"%char) as [-> | Hne].
  - unfold NilZero.uint_of_string. destruct s as [| b s]; [discriminate|].
    destruct (NilEmpty.uint_of_string (String b s)) as [d |] eqn:Hd;
      [|discriminate].
    intros _. change (occurs "&"%char (String b s) = false).
    exact (digits_without_ampersand _ _ Hd).
  - unfold NilZero.uint_of_string.
    destruct (NilEmpty.uint_of_string (String a s)) as [d |] eqn:Hd;
      [|discriminate].
    intros _. exact (digits_without_ampersand _ _ Hd).
Qed.

Lemma number_without_ampersand (n : Js.number) :
  occurs "&"%char (Js.string_of_number n) = false.
Proof.
  destruct n as [z | | |]; try reflexivity.
  exact (literal_without_ampersand _ z (Number_string_of_Z z)).
Qed.

Lemma string_of_number_inj (n n' : Js.number) :
  Js.string_of_number n = Js.string_of_number n' -> n = n'.
Proof.
  destruct n as [z | | |], n' as [z' | | |]; cbn [Js.string_of_number];
    intros H; try reflexivity; try discriminate H.
  - f_equal. now apply string_of_Z_inj.
  - pose proof (Number_string_of_Z z) as Hz. rewrite H in Hz. discriminate Hz.
  - pose proof (Number_string_of_Z z) as Hz. rewrite H in Hz. discriminate Hz.
  - pose proof (Number_string_of_Z z) as Hz. rewrite H in Hz. discriminate Hz.
  - pose proof (Number_string_of_Z z') as Hz. rewrite <- H in Hz.
    discriminate Hz.
  - pose proof (Number_string_of_Z z') as Hz. rewrite <- H in Hz.
    discriminate Hz.
  - pose proof (Number_string_of_Z z') as Hz. rewrite <- H in Hz.
    discriminate Hz.
Qed.

Lemma append_inj_l (a x y : string) :
  String.append a x = String.append a y -> x = y.
Proof.
  induction a as [| ch a IH]; cbn; [trivial|].
  intros [= H]. now apply IH.
Qed.

(** Two strings cut at their first ampersand agree on both sides. *)
Lemma split_at_ampersand (p p' r r' : string) :
  occurs "&"%char p = false ->
  occurs "&"%char p' = false ->
  String.append p (String "&"%char r) = String.append p' (String "&"%char r') ->
  p = p' /\ r = r'.
Proof.
  revert p'. induction p as [| a p IH]; intros [| b p'] Hp Hp' H; cbn in *.
  - injection H as ->. now split.
  - injection H as <- _. discriminate Hp'.
  - injection H as -> _. discriminate Hp.
  - injection H as -> H.
    apply orb_false_iff in Hp as [_ Hp].
    apply orb_false_iff in Hp' as [_ Hp'].
    destruct (IH p' Hp Hp' H) as [-> ->]. now split.
Qed.

(** X9.  The URL of a request determines its page and its size: two
    requests for different pages, or at different sizes, never ask for the
    same URL. *)
Theorem posts_url_injective (page page' : Js.number) (size size' : Z) :
  posts_url page size = posts_url page' size' ->
  page = page' /\ size = size'.
Proof.
  unfold posts_url. intros H.
  apply append_inj_l in H. apply append_inj_l in H.
  change (String.append "&size=" (Js.string_of_Z size))
    with (String "&"%char (String.append "size=" (Js.string_of_Z size))) in H.
  change (String.append "&size=" (Js.string_of_Z size'))
    with (String "&"%char (String.append "size=" (Js.string_of_Z size'))) in H.
  apply split_at_ampersand in H as [Hp Hs];
    try apply number_without_ampersand.
  apply append_inj_l in Hs.
  split; [now apply string_of_number_inj | now apply string_of_Z_inj].
Qed.

Lemma posts_url_injective_witness :
  Js.floor_div 25 10 = Js.Int 2 /\ 10 = 10.
Proof.
  exact (posts_url_injective (Js.floor_div 25 10) (Js.Int 2) 10 10 eq_refl).
Defined.

(** ** More on the handlers *)

(** X10.  Picking an option in the selector gives [onChangePageSize] the
    number of that option: the number survives being written into the
    value attribute and read back by [Number]. *)
Theorem select_onChange_option_value (c : PostsListPage) (n : Z) :
  select_onChange c (option_value n) = Some (onChangePageSize c n).
Proof.
  unfold select_onChange, option_value. now rewrite Number_string_of_Z.
Qed.



(** X12.  Two page-size changes in a row leave the component and its grid
    as the second one alone would: nothing of the first change survives. *)
Theorem onChangePageSize_last_wins (c : PostsListPage) (a b : Z) :
  onChangePageSize (onChangePageSize c a) b = onChangePageSize c b.
Proof.
  unfold onChangePageSize, setPageSize. cbn [gridApiRef pageSize].
  destruct (gridApiRef c) as [g |]; reflexivity.
Qed.

(** X13.  [onChangePageSize] does not change what a row-window request of
    the attached grid does: the request goes to the same datasource and has
    the same run as before the change. *)
Theorem onChangePageSize_leaves_window_requests
    (c : PostsListPage) (next : Z) (net : network) (params : IGetRowsParams) :
  windowRequest (onChangePageSize c next) net params
  = windowRequest c net params.
Proof.
  unfold windowRequest, onChangePageSize, setPageSize. cbn [gridApiRef].
  destruct (gridApiRef c) as [g |]; reflexivity.
Qed.


(** Each handler keeps the settings of the attached grid in step with the
    state. *)
Lemma ui_handle_in_sync (c c' : PostsListPage) (ev : ui_event) :
  in_sync c -> ui_handle c ev = Some c' -> in_sync c'.
Proof.
  intros Hc. destruct ev as [e | value]; cbn [ui_handle].
  - intros [= <-]. unfold in_sync. cbn. repeat split. discriminate.
  - unfold select_onChange. destruct (Number value) as [n |]; [|discriminate].
    cbn [option_map]. intros [= <-].
    unfold in_sync, onChangePageSize, setPageSize in *.
    destruct (gridApiRef c) as [g |]; cbn; [|exact I].
    destruct Hc as (_ & _ & Hds). repeat split. exact Hds.
Qed.

(** X15.  After any sequence of grid-ready events and selections, starting
    from the first render, the cache block size and the pagination page size
    of the attached grid both equal the page size of the state, and the
    attached grid has a datasource. *)
Theorem handlers_keep_grid_in_sync (evs : list ui_event) (c' : PostsListPage) :
  ui_run mount evs = Some c' -> in_sync c'.
Proof.
  assert (Hgen : forall c, in_sync c -> ui_run c evs = Some c' -> in_sync c').
  { induction evs as [| ev rest IH]; intros c Hc; cbn [ui_run].
    - now intros [= <-].
    - destruct (ui_handle c ev) as [c1 |] eqn:Hstep; [|discriminate].
      apply IH. exact (ui_handle_in_sync c c1 ev Hc Hstep). }
  apply Hgen. exact I.
Qed.

Lemma handlers_keep_grid_in_sync_witness :
  exists g,
    gridApiRef (onChangePageSize
                  (onGridReady (onChangePageSize mount 20)
                     {| api := AgGridReact mount |}) 50) = Some g /\
    cacheBlockSize g = 50 /\ paginationPageSize g = 50 /\
    datasource g <> None.
Proof.
  pose proof (handlers_keep_grid_in_sync
                [Select "20"; GridReady {| api := AgGridReact mount |};
                 Select "50"] _ eq_refl) as H.
  eexists. split; [reflexivity|]. exact H.
Defined.

(** ** What the selector can lead to *)

(** A selection among the offered values is a page-size change to one of
    the options. *)
Lemma offered_selection (c : PostsListPage) (value : string) :
  In value (map option_value pageSizeOptions) ->
  exists n,
    In n pageSizeOptions /\
    select_onChange c value = Some (onChangePageSize c n).
Proof.
  intros Hin. apply in_map_iff in Hin as (n & <- & Hn).
  exists n. split; [exact Hn|].
  unfold select_onChange, option_value. now rewrite Number_string_of_Z.
Qed.

(** The page size of the state is one of the options, and so is the page
    size of the datasource the attached grid holds. *)
Lemma offered_run_invariant (evs : list ui_event) (c : PostsListPage) :
  In (pageSize c) pageSizeOptions ->
  match gridApiRef c with
  | Some g =>
      exists c0,
        In (pageSize c0) pageSizeOptions /\
        datasource g = Some (buildDatasource c0)
  | None => True
  end ->
  Forall offered evs ->
  exists c',
    ui_run c evs = Some c' /\
    In (pageSize c') pageSizeOptions /\
    match gridApiRef c' with
    | Some g =>
        exists c0,
          In (pageSize c0) pageSizeOptions /\
          datasource g = Some (buildDatasource c0)
    | None => True
    end.
Proof.
  revert c. induction evs as [| ev rest IH]; intros c Hsize Hds Hall.
  - exists c. now repeat split.
  - inversion Hall as [| ? ? Hev Hrest]; subst.
    destruct ev as [e | value]; cbn [ui_run ui_handle].
    + apply IH; [exact Hsize | | exact Hrest].
      cbn. exists c. now split.
    + destruct (offered_selection c value Hev) as (n & Hn & ->).
      apply IH; [| | exact Hrest].
      * unfold onChangePageSize. now destruct (gridApiRef c).
      * unfold onChangePageSize, setPageSize.
        destruct (gridApiRef c) as [g |]; cbn; [exact Hds | exact I].
Qed.

(** X16.  Through grid-ready events and selections among the offered
    values, every handler call goes through and the page size of the state
    stays one of the four options; in particular it stays positive. *)
Theorem offered_sizes_only (evs : list ui_event) :
  Forall offered evs ->
  exists c',
    ui_run mount evs = Some c' /\
    In (pageSize c') pageSizeOptions /\
    0 < pageSize c'.
Proof.
  intros Hall.
  destruct (offered_run_invariant evs mount) as (c' & Hrun & Hin & _);
    [now left | exact I | exact Hall |].
  exists c'. split; [exact Hrun|]. split; [exact Hin|].
  cbn in Hin. lia.
Qed.

Lemma offered_sizes_only_witness :
  exists c',
    ui_run mount
      [Select "100"; GridReady {| api := AgGridReact mount |}; Select "20"]
    = Some c' /\
    In (pageSize c') pageSizeOptions /\
    0 < pageSize c'.
Proof.
  apply offered_sizes_only.
  repeat constructor; cbn; tauto.
Defined.

(** X17.  Through grid-ready events and selections among the offered
    values, a row-window request for a row [0 <= startRow <=
    MAX_SAFE_INTEGER] does nothing at all while no grid is attached; once a
    grid is attached it sends exactly one request, for the page that
    contains the row, of a non-negative index, at a size that is one of the
    four options.  No such request carries [NaN] or an infinity. *)
Theorem offered_requests_are_pages
    (evs : list ui_event) (c' : PostsListPage) (net : network)
    (params : IGetRowsParams) :
  Forall offered evs ->
  ui_run mount evs = Some c' ->
  0 <= resolved_startRow params <= Js.MAX_SAFE_INTEGER ->
  match gridApiRef c' with
  | None => events (windowRequest c' net params) = []
  | Some _ =>
      exists n q,
        In n pageSizeOptions /\
        0 <= q /\
        q * n <= resolved_startRow params < (q + 1) * n /\
        fetched (windowRequest c' net params)
        = [String.append "http://localhost:8088/api/posts?page="
             (String.append (Js.string_of_Z q)
                (String.append "&size=" (Js.string_of_Z n)))]
  end.
Proof.
  intros Hall Hrun [Hs _].
  destruct (offered_run_invariant evs mount) as (c1 & Hrun1 & _ & Hds);
    [now left | exact I | exact Hall |].
  rewrite Hrun in Hrun1. injection Hrun1 as <-.
  unfold windowRequest, requestRows.
  destruct (gridApiRef c') as [g |]; [|reflexivity].
  destruct Hds as (c0 & Hin & ->).
  assert (Hp : 0 < pageSize c0) by (cbn in Hin; lia).
  exists (pageSize c0), (resolved_startRow params / pageSize c0).
  pose proof (Z.mul_div_le (resolved_startRow params) (pageSize c0) Hp).
  pose proof (Z.mul_succ_div_gt (resolved_startRow params) (pageSize c0) Hp).
  pose proof (Z.div_pos (resolved_startRow params) (pageSize c0) Hs Hp).
  split; [exact Hin|]. split; [assumption|]. split; [nia|].
  rewrite run_fetches_once. unfold request_url, page_index, Js.floor_div.
  destruct (Z.eqb_spec (pageSize c0) 0); [lia | reflexivity].
Qed.

Lemma offered_requests_are_pages_witness :
  (exists n q,
     In n pageSizeOptions /\
     0 <= q /\
     q * n <= 250 < (q + 1) * n /\
     fetched (windowRequest
                (onChangePageSize
                   (onGridReady (onChangePageSize mount 100)
                      {| api := AgGridReact mount |}) 20)
                (always {| status := 200; json := inr page0 |})
                (window (Some 250) None))
     = [String.append "http://localhost:8088/api/posts?page="
          (String.append (Js.string_of_Z q)
             (String.append "&size=" (Js.string_of_Z n)))]) /\
  events (windowRequest (onChangePageSize mount 20)
            (always {| status := 200; json := inr page0 |})
            (window (Some 250) None)) = [].
Proof.
  split.
  - refine (offered_requests_are_pages
              [Select "100"; GridReady {| api := AgGridReact mount |};
               Select "20"] _
              (always {| status := 200; json := inr page0 |})
              (window (Some 250) None) _ eq_refl _).
    + repeat constructor; cbn; tauto.
    + unfold Js.MAX_SAFE_INTEGER; cbn; lia.
  - refine (offered_requests_are_pages [Select "20"] _
              (always {| status := 200; json := inr page0 |})
              (window (Some 250) None) _ eq_refl _).
    + repeat constructor; cbn; tauto.
    + unfold Js.MAX_SAFE_INTEGER; cbn; lia.
Defined.
